(** * Shallow embedding of src/ttsserver/tts_server.py

    The module-level objects of the server (the [EMOTION_PROMPTS] dict and
    the preloaded model) form the process state [proc].  The handler [tts]
    runs in a small monad that threads that state, records the calls it
    makes to the two external collaborators (bark's [generate_audio] and
    soundfile's [sf.write]) in a trace, and propagates Python exceptions as
    [inl]. *)

From stdpp Require Import base gmap strings list.
From Stdlib Require Import ZArith.
From Stdlib Require Import Init.Byte.

Set Warnings "-register-all".
Open Scope string_scope.

(** ** Python values *)

(** A Python exception, as far as the handler can see it. *)
Inductive exn :=
| ValidationError (field : string) (msg : string)
| PyException (name : string) (msg : string).

(** Decoded JSON values, as FastAPI hands them to pydantic. *)
Inductive json :=
| JString (s : string)
| JNumber (n : Z)
| JBool (b : bool)
| JNull
| JArray (l : list json)
| JObject (fields : list (string * json)).

(** [dict.get(key, default)] *)
Definition dict_get {V} (d : gmap string V) (k : string) (dflt : V) : V :=
  match d !! k with
  | Some v => v
  | None => dflt
  end.

(** ** io.BytesIO *)

Record BytesIO := mkBytesIO { bio_data : list byte; bio_pos : nat }.

(** [io.BytesIO()] *)
Definition BytesIO_new : BytesIO := mkBytesIO [] 0.

(** [buffer.write(bs)]: overwrite from the current position, padding with
    NUL bytes when the position lies past the end; the position moves past
    the written bytes. *)
Definition BytesIO_write (b : BytesIO) (bs : list byte) : BytesIO :=
  let d := bio_data b in
  let p := bio_pos b in
  mkBytesIO (take p d ++ replicate (p - length d) x00 ++ bs
               ++ drop (p + length bs) d)
            (p + length bs).

(** [buffer.seek(n)] (whence = 0) *)
Definition BytesIO_seek (b : BytesIO) (n : nat) : BytesIO :=
  mkBytesIO (bio_data b) n.

(** Reading the buffer to its end from the current position: what
    iterating over it (as [StreamingResponse] does) yields, concatenated. *)
Definition BytesIO_read (b : BytesIO) : list byte :=
  drop (bio_pos b) (bio_data b).

(** ** starlette's StreamingResponse *)

Record StreamingResponse := mkStreamingResponse {
  content : BytesIO;
  media_type : string;
  status_code : Z
}.

(** [StreamingResponse(content, media_type=...)], default status 200. *)
Definition StreamingResponse_new (c : BytesIO) (mt : string) : StreamingResponse :=
  mkStreamingResponse c mt 200.

(** The bytes sent as the HTTP response body. *)
Definition response_body (r : StreamingResponse) : list byte :=
  BytesIO_read (content r).

(** ** Module-level state *)

(** Lines 25-29. *)
Definition EMOTION_PROMPTS : gmap string string :=
  <["hype" := "Excited esports commentator voice. High energy. Crowd roaring."]>
  (<["tense" := "Low, tense esports caster voice. Controlled breathing."]>
  (<["calm" := "Calm analyst voice. Confident and composed."]> ∅)).

Record proc := mkProc {
  emotion_prompts : gmap string string;  (** the global [EMOTION_PROMPTS] *)
  models_preloaded : bool                (** effect of [preload_models()] *)
}.

(** Executing the module: line 19 preloads the models, lines 25-29 bind
    [EMOTION_PROMPTS]. *)
Definition module_init : proc := mkProc EMOTION_PROMPTS true.

(** ** The handler monad *)

(** Calls the handler makes to code outside this repository. *)
Inductive event :=
| Generate (prompt : string)                      (** [generate_audio(prompt)] *)
| SfWrite (samplerate : Z) (format : string).     (** [sf.write(_, _, sr, format=...)] *)

Record outcome (A : Type) := mkOutcome {
  out_res : exn + A;
  out_proc : proc;
  out_trace : list event
}.
Arguments mkOutcome {_} _ _ _.
Arguments out_res {_} _.
Arguments out_proc {_} _.
Arguments out_trace {_} _.

Definition M (A : Type) : Type := proc -> list event -> outcome A.

Global Instance M_ret : MRet M := fun A x st tr => mkOutcome (inr x) st tr.
Global Instance M_bind : MBind M := fun A B f m st tr =>
  match m st tr with
  | mkOutcome (inl e) st' tr' => mkOutcome (inl e) st' tr'
  | mkOutcome (inr x) st' tr' => f x st' tr'
  end.

Definition raise {A} (e : exn) : M A := fun st tr => mkOutcome (inl e) st tr.

Definition lift {A} (r : exn + A) : M A :=
  match r with inl e => raise e | inr x => mret x end.

Definition emit (ev : event) : M unit := fun st tr => mkOutcome (inr tt) st (tr ++ [ev]).

(** Reading the global [EMOTION_PROMPTS]. *)
Definition get_EMOTION_PROMPTS : M (gmap string string) :=
  fun st tr => mkOutcome (inr (emotion_prompts st)) st tr.

(** ** pydantic model TTSRequest (lines 21-23) *)

Record TTSRequest := mkTTSRequest { text : string; emotion : string }.

(** A [str] field in pydantic's lax mode accepts JSON strings only. *)
Definition validate_str (field : string) (v : json) : exn + string :=
  match v with
  | JString s => inr s
  | _ => inl (ValidationError field "Input should be a valid string")
  end.

(** [TTSRequest.model_validate(body)]: [text] required, [emotion] defaults
    to ["hype"]; other keys are ignored. *)
Definition TTSRequest_validate (body : gmap string json) : exn + TTSRequest :=
  match body !! "text" with
  | None => inl (ValidationError "text" "Field required")
  | Some vt =>
      match validate_str "text" vt with
      | inl e => inl e
      | inr t =>
          match body !! "emotion" with
          | None => inr (mkTTSRequest t "hype")
          | Some ve =>
              match validate_str "emotion" ve with
              | inl e => inl e
              | inr em => inr (mkTTSRequest t em)
              end
          end
      end
  end.

(** ** The handler (lines 31-41) *)

Section Handler.

(** The external collaborators: bark's generation function and the WAV
    encoder behind [sf.write]; either may raise. *)
Variable waveform : Type.
Variable bark_generate_audio : string -> exn + waveform.
Variable sf_encode : waveform -> Z -> string -> exn + list byte.

Definition generate_audio (prompt : string) : M waveform :=
  emit (Generate prompt);; lift (bark_generate_audio prompt).

(** [sf.write(buffer, audio, samplerate, format=fmt)]: the encoded bytes
    are written into the file object from its current position. *)
Definition sf_write (buffer : BytesIO) (audio : waveform) (samplerate : Z)
    (fmt : string) : M BytesIO :=
  emit (SfWrite samplerate fmt);;
  bs ← lift (sf_encode audio samplerate fmt);
  mret (BytesIO_write buffer bs).

(** Line 33: the f-string [f"{prefix} {text}"]. *)
Definition compose_prompt (prompts : gmap string string) (req : TTSRequest) : string :=
  dict_get prompts (emotion req) "" +:+ " " +:+ text req.

Definition tts (req : TTSRequest) : M StreamingResponse :=
  prompts ← get_EMOTION_PROMPTS;
  let prompt := compose_prompt prompts req in
  audio ← generate_audio prompt;
  let buffer := BytesIO_new in
  buffer ← sf_write buffer audio 24000 "WAV";
  let buffer := BytesIO_seek buffer 0 in
  mret (StreamingResponse_new buffer "audio/wav").

(** [POST /tts]: FastAPI validates the body into a [TTSRequest], then calls
    the handler. *)
Definition post_tts (body : gmap string json) : M StreamingResponse :=
  req ← lift (TTSRequest_validate body);
  tts req.

(** What FastAPI sends back for [POST /tts]: a body that fails validation is
    answered 422 before the handler runs; an exception escaping the handler
    reaches Starlette's default server-error handler (500, plain text);
    otherwise the handler's response is streamed. *)
Record http_response := mkHttpResponse {
  http_status : Z;
  http_content_type : string;
  http_body : list byte
}.

Definition generic_server_error : http_response :=
  mkHttpResponse 500 "text/plain; charset=utf-8"
    (String.list_byte_of_string "Internal Server Error").

Definition http_post_tts (body : gmap string json) (st : proc) : http_response :=
  match TTSRequest_validate body with
  | inl _ => mkHttpResponse 422 "application/json" []
  | inr req =>
      match out_res (tts req st []) with
      | inl _ => generic_server_error
      | inr r => mkHttpResponse (status_code r) (media_type r) (response_body r)
      end
  end.

(** A sequence of requests served one after the other by one process. *)
Fixpoint serve (bodies : list (gmap string json)) (st : proc) : proc :=
  match bodies with
  | [] => st
  | b :: bs => serve bs (out_proc (post_tts b st []))
  end.

End Handler.

(** ** Properties of the handler *)

Section HandlerProps.

Variable waveform : Type.
Variable bark_generate_audio : string -> exn + waveform.
Variable sf_encode : waveform -> Z -> string -> exn + list byte.

Local Abbreviation tts := (tts waveform bark_generate_audio sf_encode).
Local Abbreviation post_tts := (post_tts waveform bark_generate_audio sf_encode).
Local Abbreviation serve := (serve waveform bark_generate_audio sf_encode).
Local Abbreviation http_post_tts := (http_post_tts waveform bark_generate_audio sf_encode).

Ltac unfold_M :=
  unfold mbind, M_bind, mret, M_ret, lift, raise, emit, get_EMOTION_PROMPTS in *.

(** One run of the handler, written out: line 33, then [generate_audio],
    then [sf.write] into a fresh buffer, then the rewind. *)
Lemma tts_run (req : TTSRequest) (st : proc) (tr : list event) :
  tts req st tr =
  let prompt := compose_prompt (emotion_prompts st) req in
  match bark_generate_audio prompt with
  | inl e => mkOutcome (inl e) st (tr ++ [Generate prompt])
  | inr audio =>
      match sf_encode audio 24000 "WAV" with
      | inl e => mkOutcome (inl e) st ((tr ++ [Generate prompt]) ++ [SfWrite 24000 "WAV"])
      | inr bs =>
          mkOutcome (inr (StreamingResponse_new
                            (BytesIO_seek (BytesIO_write BytesIO_new bs) 0) "audio/wav"))
                    st ((tr ++ [Generate prompt]) ++ [SfWrite 24000 "WAV"])
      end
  end.
Proof.
  unfold tts, generate_audio, sf_write; unfold_M; cbn.
  destruct (bark_generate_audio _) as [e|audio]; cbn; [reflexivity|].
  destruct (sf_encode audio 24000 "WAV"); reflexivity.
Qed.

Lemma tts_proc (req : TTSRequest) (st : proc) (tr : list event) :
  out_proc (tts req st tr) = st.
Proof.
  rewrite tts_run; cbn.
  destruct (bark_generate_audio _); [reflexivity|].
  destruct (sf_encode _ _ _); reflexivity.
Qed.

Lemma tts_trace_head (req : TTSRequest) (st : proc) :
  head (out_trace (tts req st [])) =
  Some (Generate (compose_prompt (emotion_prompts st) req)).
Proof.
  rewrite tts_run; cbn.
  destruct (bark_generate_audio _); [reflexivity|].
  destruct (sf_encode _ _ _); reflexivity.
Qed.

Lemma post_tts_validated (body : gmap string json) (req : TTSRequest)
    (st : proc) (tr : list event) :
  TTSRequest_validate body = inr req ->
  post_tts body st tr = tts req st tr.
Proof.
  intros Hv. unfold post_tts. rewrite Hv. unfold_M. reflexivity.
Qed.

Lemma post_tts_proc (body : gmap string json) (st : proc) (tr : list event) :
  out_proc (post_tts body st tr) = st.
Proof.
  destruct (TTSRequest_validate body) as [e|req] eqn:Hv.
  - unfold post_tts. rewrite Hv. unfold_M. reflexivity.
  - rewrite (post_tts_validated _ req) by exact Hv. apply tts_proc.
Qed.

Lemma serve_proc (bodies : list (gmap string json)) (st : proc) :
  serve bodies st = st.
Proof.
  revert st. induction bodies as [|b bs IH]; intros st; cbn; [reflexivity|].
  rewrite IH. apply post_tts_proc.
Qed.

Lemma serve_prompts (bodies : list (gmap string json)) :
  emotion_prompts (serve bodies module_init) = EMOTION_PROMPTS.
Proof. rewrite serve_proc. reflexivity. Qed.

Lemma BytesIO_rewound_read (bs : list byte) :
  BytesIO_read (BytesIO_seek (BytesIO_write BytesIO_new bs) 0) = bs.
Proof.
  unfold BytesIO_read, BytesIO_seek, BytesIO_write, BytesIO_new; cbn.
  rewrite drop_nil, app_nil_r. reflexivity.
Qed.

Lemma string_app_empty_r (s : string) : s +:+ "" = s.
Proof. induction s as [|c s IH]; [reflexivity|]. exact (f_equal (String c) IH). Qed.

Lemma EMOTION_PROMPTS_lookup_None (e : string) :
  e ∉ ["hype"; "tense"; "calm"] -> EMOTION_PROMPTS !! e = None.
Proof.
  intros He. rewrite !not_elem_of_cons in He. destruct He as (H1 & H2 & H3 & _).
  unfold EMOTION_PROMPTS.
  rewrite !lookup_insert_ne by congruence. apply lookup_empty.
Qed.

(** Without the rewind of line 39 the stream would start at the end of
    the encoded bytes and send nothing. *)
Lemma BytesIO_unrewound_read (bs : list byte) :
  BytesIO_read (BytesIO_write BytesIO_new bs) = [].
Proof.
  unfold BytesIO_read, BytesIO_write, BytesIO_new; cbn.
  rewrite drop_nil, app_nil_r. apply drop_all.
Qed.

(** C1: for a request whose emotion is "hype", "tense" or "calm", the
    handler (in any state the server reaches) passes to the generation
    function the prompt made of that label's entry in [EMOTION_PROMPTS],
    one space, and the raw request text. *)
Theorem tts_prompt_recognized_emotion (bodies : list (gmap string json))
    (req : TTSRequest) :
  emotion req = "hype" \/ emotion req = "tense" \/ emotion req = "calm" ->
  exists prefix, EMOTION_PROMPTS !! emotion req = Some prefix /\
    head (out_trace (tts req (serve bodies module_init) [])) =
    Some (Generate (prefix +:+ " " +:+ text req)).
Proof.
  intros H. rewrite tts_trace_head, serve_prompts.
  unfold compose_prompt, dict_get.
  destruct H as [H|[H|H]]; rewrite H; eexists; split; reflexivity.
Qed.

(** C2: for a request whose emotion is not a key of [EMOTION_PROMPTS], the
    lookup falls back to the empty prefix without raising, and the prompt
    passed to the generation function is one space followed by the text. *)
Theorem tts_prompt_unknown_emotion (bodies : list (gmap string json))
    (req : TTSRequest) :
  EMOTION_PROMPTS !! emotion req = None ->
  head (out_trace (tts req (serve bodies module_init) [])) =
  Some (Generate (" " +:+ text req)).
Proof.
  intros H. rewrite tts_trace_head, serve_prompts.
  unfold compose_prompt, dict_get. rewrite H. reflexivity.
Qed.

(** C3: a body with a string "text" and no "emotion" validates to a
    request with emotion "hype", and the prompt uses the "hype" prefix. *)
Theorem post_tts_default_emotion (bodies : list (gmap string json))
    (body : gmap string json) (t : string) :
  body !! "text" = Some (JString t) -> body !! "emotion" = None ->
  TTSRequest_validate body = inr (mkTTSRequest t "hype") /\
  exists prefix, EMOTION_PROMPTS !! "hype" = Some prefix /\
    head (out_trace (post_tts body (serve bodies module_init) [])) =
    Some (Generate (prefix +:+ " " +:+ t)).
Proof.
  intros Ht He.
  assert (Hv : TTSRequest_validate body = inr (mkTTSRequest t "hype")).
  { unfold TTSRequest_validate. rewrite Ht, He. reflexivity. }
  split; [exact Hv|].
  rewrite (post_tts_validated body _ _ _ Hv), tts_trace_head, serve_prompts.
  eexists; split; reflexivity.
Qed.

(** C4: every call the handler makes to [sf.write] uses sample rate 24000
    and format "WAV", every response it returns declares media type
    "audio/wav" (status 200), and so does every successful HTTP answer. *)
Theorem tts_wav_24000 (req : TTSRequest) (st : proc) :
  (forall sr fmt, SfWrite sr fmt ∈ out_trace (tts req st []) ->
     sr = 24000%Z /\ fmt = "WAV") /\
  (forall r, out_res (tts req st []) = inr r ->
     media_type r = "audio/wav" /\ status_code r = 200%Z) /\
  (forall body, http_status (http_post_tts body st) = 200%Z ->
     http_content_type (http_post_tts body st) = "audio/wav").
Proof.
  split; [|split].
  - intros sr fmt Hin. rewrite tts_run in Hin; cbn in Hin.
    destruct (bark_generate_audio _); [|destruct (sf_encode _ _ _)];
      cbn in Hin; rewrite ?elem_of_cons, ?list_elem_of_singleton in Hin;
      repeat match goal with
             | H : _ \/ _ |- _ => destruct H as [H|H]
             | H : _ ∈ [] |- _ => apply not_elem_of_nil in H; contradiction
             | H : SfWrite _ _ = SfWrite _ _ |- _ => injection H as -> ->; split; reflexivity
             | H : SfWrite _ _ = Generate _ |- _ => discriminate H
             end.
  - intros r Hr. rewrite tts_run in Hr; cbn in Hr.
    destruct (bark_generate_audio _); [discriminate|].
    destruct (sf_encode _ _ _); [discriminate|].
    injection Hr as <-. split; reflexivity.
  - intros body. unfold http_post_tts.
    destruct (TTSRequest_validate body) as [e|req']; cbn; [discriminate|].
    rewrite tts_run; cbn.
    destruct (bark_generate_audio _); cbn; [discriminate|].
    destruct (sf_encode _ _ _); cbn; [discriminate|reflexivity].
Qed.

(** C5: when the body validates but the generation call or the encoding
    raises, the handler catches nothing: the same exception leaves
    [POST /tts] with no response of the handler's own, the process state is
    untouched, and the client receives the framework's generic server error. *)
Theorem post_tts_faults_propagate (body : gmap string json) (req : TTSRequest)
    (st : proc) (e : exn) :
  TTSRequest_validate body = inr req ->
  (bark_generate_audio (compose_prompt (emotion_prompts st) req) = inl e \/
   exists audio, bark_generate_audio (compose_prompt (emotion_prompts st) req) = inr audio /\
                 sf_encode audio 24000 "WAV" = inl e) ->
  out_res (post_tts body st []) = inl e /\
  out_proc (post_tts body st []) = st /\
  http_post_tts body st = generic_server_error.
Proof.
  intros Hv Hf.
  assert (Hres : out_res (tts req st []) = inl e).
  { rewrite tts_run; cbn.
    destruct Hf as [Hg|(audio & Hg & Hs)]; rewrite Hg; [reflexivity|].
    rewrite Hs. reflexivity. }
  rewrite (post_tts_validated body _ _ _ Hv), tts_proc.
  split; [exact Hres|split; [reflexivity|]].
  unfold http_post_tts. rewrite Hv, Hres. reflexivity.
Qed.

(** C6: [EMOTION_PROMPTS] has exactly the keys "hype", "tense" and "calm",
    each bound to a non-empty prefix; the module binds it at start-up and
    serving any sequence of requests leaves it unchanged. *)
Theorem EMOTION_PROMPTS_fixed (bodies : list (gmap string json)) :
  dom EMOTION_PROMPTS = ({["hype"; "tense"; "calm"]} : gset string) /\
  map_Forall (fun _ v => v <> "") EMOTION_PROMPTS /\
  emotion_prompts module_init = EMOTION_PROMPTS /\
  emotion_prompts (serve bodies module_init) = EMOTION_PROMPTS.
Proof.
  split; [|split; [|split]].
  - unfold EMOTION_PROMPTS. rewrite !dom_insert_L, dom_empty_L. set_solver.
  - unfold EMOTION_PROMPTS.
    repeat apply map_Forall_insert_2; try apply map_Forall_empty; discriminate.
  - reflexivity.
  - apply serve_prompts.
Qed.

(** C7: a body whose "text" is the empty string (and whose "emotion" is
    absent or a string) validates, and the prompt passed to the generation
    function is the emotion's prefix followed by one space. *)
Theorem post_tts_empty_text (bodies : list (gmap string json))
    (body : gmap string json) :
  body !! "text" = Some (JString "") ->
  (body !! "emotion" = None \/ exists em, body !! "emotion" = Some (JString em)) ->
  exists req, TTSRequest_validate body = inr req /\ text req = "" /\
    head (out_trace (post_tts body (serve bodies module_init) [])) =
    Some (Generate (dict_get EMOTION_PROMPTS (emotion req) "" +:+ " ")).
Proof.
  intros Ht He.
  assert (Hv : exists em, TTSRequest_validate body = inr (mkTTSRequest "" em)).
  { unfold TTSRequest_validate. rewrite Ht.
    destruct He as [He|(em & He)]; rewrite He; eexists; reflexivity. }
  destruct Hv as (em & Hv).
  exists (mkTTSRequest "" em). split; [exact Hv|split; [reflexivity|]].
  rewrite (post_tts_validated body _ _ _ Hv), tts_trace_head, serve_prompts.
  unfold compose_prompt; cbn. rewrite string_app_empty_r. reflexivity.
Qed.

(** C8: the lookup is exact string matching: any label other than the
    three keys (e.g. "Hype", "CALM", " hype") gets the empty prefix, and the
    prompt is one space followed by the text. *)
Theorem tts_emotion_exact_match (bodies : list (gmap string json))
    (req : TTSRequest) :
  emotion req ∉ ["hype"; "tense"; "calm"] ->
  dict_get EMOTION_PROMPTS (emotion req) "" = "" /\
  head (out_trace (tts req (serve bodies module_init) [])) =
  Some (Generate (" " +:+ text req)).
Proof.
  intros H. apply EMOTION_PROMPTS_lookup_None in H.
  unfold dict_get. rewrite H. split; [reflexivity|].
  rewrite tts_trace_head, serve_prompts.
  unfold compose_prompt, dict_get. rewrite H. reflexivity.
Qed.

(** C9: serving a body, then any other bodies, then the same body again
    gives the same outcome (result, response body and calls made), and no
    run changes the process state. *)
Theorem post_tts_deterministic (body : gmap string json)
    (others : list (gmap string json)) (st : proc) :
  let o1 := post_tts body st [] in
  let o2 := post_tts body (serve others (out_proc o1)) [] in
  o1 = o2 /\ out_proc o1 = st /\ out_proc o2 = st.
Proof.
  cbv zeta. rewrite !post_tts_proc, serve_proc.
  split; [reflexivity|split; reflexivity].
Qed.

(** C10: a response of the handler streams exactly the bytes the WAV
    encoder wrote into the buffer, from the first one, in order. *)
Theorem tts_body_is_encoding (req : TTSRequest) (st : proc) (r : StreamingResponse) :
  out_res (tts req st []) = inr r ->
  exists audio bs,
    bark_generate_audio (compose_prompt (emotion_prompts st) req) = inr audio /\
    sf_encode audio 24000 "WAV" = inr bs /\
    bio_data (content r) = bs /\
    response_body r = bs.
Proof.
  intros Hr. rewrite tts_run in Hr; cbn in Hr.
  destruct (bark_generate_audio _) as [e|audio]; [discriminate|].
  destruct (sf_encode audio 24000 "WAV") as [e|bs] eqn:Hs; [discriminate|].
  injection Hr as <-. exists audio, bs.
  split; [reflexivity|split; [exact Hs|split]].
  - cbn. rewrite drop_nil, !app_nil_r. reflexivity.
  - apply BytesIO_rewound_read.
Qed.

End HandlerProps.

(** ** Further properties of the request model and the handler *)

Section ExtraProps.

Variable waveform : Type.
Variable bark_generate_audio : string -> exn + waveform.
Variable sf_encode : waveform -> Z -> string -> exn + list byte.

Local Abbreviation tts := (tts waveform bark_generate_audio sf_encode).
Local Abbreviation post_tts := (post_tts waveform bark_generate_audio sf_encode).
Local Abbreviation http_post_tts := (http_post_tts waveform bark_generate_audio sf_encode).

Lemma post_tts_rejected (body : gmap string json) (st : proc) (e : exn) :
  TTSRequest_validate body = inl e ->
  post_tts body st [] = mkOutcome (inl e) st [].
Proof.
  intros Hv. unfold post_tts. rewrite Hv.
  unfold mbind, M_bind, lift, raise. reflexivity.
Qed.

Lemma string_app_cancel_l (s a b : string) : s +:+ a = s +:+ b -> a = b.
Proof.
  induction s as [|c s IH]; intros H; [exact H|].
  apply IH. injection H as H. exact H.
Qed.

Lemma EMOTION_PROMPTS_prefix_cases (e : string) :
  dict_get EMOTION_PROMPTS e "" = "" \/
  dict_get EMOTION_PROMPTS e "" = "Excited esports commentator voice. High energy. Crowd roaring." \/
  dict_get EMOTION_PROMPTS e "" = "Low, tense esports caster voice. Controlled breathing." \/
  dict_get EMOTION_PROMPTS e "" = "Calm analyst voice. Confident and composed.".
Proof.
  destruct (decide (e ∈ ["hype"; "tense"; "calm"])) as [Hin|Hout].
  - rewrite !elem_of_cons in Hin.
    destruct Hin as [->|[->|[->|Hnil]]]; [right; left|right; right; left|right; right; right|];
      try (vm_compute; reflexivity).
    apply not_elem_of_nil in Hnil. contradiction.
  - left. unfold dict_get. rewrite EMOTION_PROMPTS_lookup_None by exact Hout. reflexivity.
Qed.

(** X1: a body whose "text" is missing or not a JSON string is rejected by
    the request model: the handler never runs, no generation or encoding
    call is made, and the client receives 422. *)
Theorem post_tts_text_required (body : gmap string json) (st : proc) :
  (forall t, body !! "text" <> Some (JString t)) ->
  (exists msg, out_res (post_tts body st []) = inl (ValidationError "text" msg)) /\
  out_trace (post_tts body st []) = [] /\
  http_status (http_post_tts body st) = 422%Z.
Proof.
  intros Ht.
  assert (Hv : exists msg, TTSRequest_validate body = inl (ValidationError "text" msg)).
  { unfold TTSRequest_validate.
    destruct (body !! "text") as [[t| | | | |]|] eqn:Hb; cbn;
      try (eexists; reflexivity).
    exfalso. exact (Ht t eq_refl). }
  destruct Hv as (msg & Hv).
  rewrite (post_tts_rejected body st _ Hv).
  split; [exists msg; reflexivity|split; [reflexivity|]].
  unfold http_post_tts. rewrite Hv. reflexivity.
Qed.

(** X2: an "emotion" that is present but not a JSON string (for instance
    null) is rejected, not replaced by the default "hype": no generation
    call is made and the client receives 422. *)
Theorem post_tts_emotion_must_be_string (body : gmap string json) (st : proc)
    (t : string) (v : json) :
  body !! "text" = Some (JString t) ->
  body !! "emotion" = Some v ->
  (forall em, v <> JString em) ->
  (exists msg, out_res (post_tts body st []) = inl (ValidationError "emotion" msg)) /\
  out_trace (post_tts body st []) = [] /\
  http_status (http_post_tts body st) = 422%Z.
Proof.
  intros Ht He Hv.
  assert (Hval : exists msg, TTSRequest_validate body = inl (ValidationError "emotion" msg)).
  { unfold TTSRequest_validate. rewrite Ht, He.
    destruct v as [em| | | | |]; cbn; try (eexists; reflexivity).
    exfalso. exact (Hv em eq_refl). }
  destruct Hval as (msg & Hval).
  rewrite (post_tts_rejected body st _ Hval).
  split; [exists msg; reflexivity|split; [reflexivity|]].
  unfold http_post_tts. rewrite Hval. reflexivity.
Qed.


(** X4: keys of the body other than "text" and "emotion" are ignored: adding
    one changes neither the validated request nor the run of [POST /tts]. *)
Theorem post_tts_extra_keys_ignored (body : gmap string json) (k : string)
    (v : json) (st : proc) :
  k <> "text" -> k <> "emotion" ->
  TTSRequest_validate (<[k := v]> body) = TTSRequest_validate body /\
  post_tts (<[k := v]> body) st [] = post_tts body st [].
Proof.
  intros Hk1 Hk2.
  assert (Hv : TTSRequest_validate (<[k := v]> body) = TTSRequest_validate body).
  { unfold TTSRequest_validate. rewrite !lookup_insert_ne by congruence. reflexivity. }
  split; [exact Hv|]. unfold post_tts. rewrite Hv. reflexivity.
Qed.

(** X5: the handler calls the generation function exactly once, first, on the
    composed prompt; it calls [sf.write] only when generation returned, and
    then exactly once; it never calls [sf.write] after a generation fault. *)
Theorem tts_call_sequence (req : TTSRequest) (st : proc) :
  let prompt := compose_prompt (emotion_prompts st) req in
  (forall e, bark_generate_audio prompt = inl e ->
     out_trace (tts req st []) = [Generate prompt]) /\
  (forall audio, bark_generate_audio prompt = inr audio ->
     out_trace (tts req st []) = [Generate prompt; SfWrite 24000 "WAV"]).
Proof.
  cbv zeta. split.
  - intros e He. rewrite tts_run; cbn. rewrite He. reflexivity.
  - intros audio Ha. rewrite tts_run; cbn. rewrite Ha.
    destruct (sf_encode audio 24000 "WAV"); reflexivity.
Qed.

(** X6: with the server's table, the composed prompt determines the request
    text and the prefix that was used: two requests that give the same
    prompt have the same text and the same effective prefix. *)
Theorem compose_prompt_injective (r1 r2 : TTSRequest) :
  compose_prompt EMOTION_PROMPTS r1 = compose_prompt EMOTION_PROMPTS r2 ->
  text r1 = text r2 /\
  dict_get EMOTION_PROMPTS (emotion r1) "" = dict_get EMOTION_PROMPTS (emotion r2) "".
Proof.
  unfold compose_prompt. intros H.
  destruct (EMOTION_PROMPTS_prefix_cases (emotion r1)) as [E1|[E1|[E1|E1]]];
  destruct (EMOTION_PROMPTS_prefix_cases (emotion r2)) as [E2|[E2|[E2|E2]]];
  rewrite E1, E2 in *;
  first
    [ split; [|reflexivity];
      apply string_app_cancel_l in H; apply (string_app_cancel_l " ") in H; exact H
    | vm_compute in H; discriminate H ].
Qed.


End ExtraProps.

(** ** Stub collaborators for concrete runs *)

(** A waveform is a list of samples. *)
Definition stub_generate (prompt : string) : exn + list Z :=
  inr [0; 1; 0; -1]%Z.

(** A stand-in encoder: a 4-byte header followed by one byte per sample. *)
Definition stub_encode (audio : list Z) (sr : Z) (fmt : string) : exn + list byte :=
  if bool_decide (fmt = "WAV") then inr (app [x52; x49; x46; x46] (map (fun _ => x00) audio))
  else inl (PyException "TypeError" "unsupported format").

Definition failing_generate (prompt : string) : exn + list Z :=
  inl (PyException "RuntimeError" "CUDA out of memory").

Definition calm_body : gmap string json :=
  <["text" := JString "gg well played"]> (<["emotion" := JString "calm"]> ∅).

Definition text_only_body : gmap string json := <["text" := JString "what a play"]> ∅.

Example calm_prompt :
  out_trace (post_tts _ stub_generate stub_encode calm_body module_init []) =
  [Generate "Calm analyst voice. Confident and composed. gg well played";
   SfWrite 24000 "WAV"].
Proof. vm_compute. reflexivity. Qed.

Example calm_http :
  http_post_tts _ stub_generate stub_encode calm_body module_init =
  mkHttpResponse 200 "audio/wav" [x52; x49; x46; x46; x00; x00; x00; x00].
Proof. vm_compute. reflexivity. Qed.

(** ** Witnesses at concrete requests *)

Lemma tts_prompt_recognized_emotion_witness :
  exists prefix,
    EMOTION_PROMPTS !! emotion (mkTTSRequest "gg well played" "calm") = Some prefix /\
    head (out_trace (tts _ stub_generate stub_encode
                       (mkTTSRequest "gg well played" "calm")
                       (serve _ stub_generate stub_encode [calm_body] module_init) [])) =
    Some (Generate (prefix +:+ " " +:+ "gg well played")).
Proof.
  apply (tts_prompt_recognized_emotion (list Z) stub_generate stub_encode
           [calm_body] (mkTTSRequest "gg well played" "calm")).
  right; right; reflexivity.
Defined.

Lemma tts_prompt_unknown_emotion_witness :
  head (out_trace (tts _ stub_generate stub_encode
                     (mkTTSRequest "gg" "joyful")
                     (serve _ stub_generate stub_encode [] module_init) [])) =
  Some (Generate (" " +:+ "gg")).
Proof.
  apply (tts_prompt_unknown_emotion (list Z) stub_generate stub_encode
           [] (mkTTSRequest "gg" "joyful")).
  vm_compute. reflexivity.
Defined.

Lemma post_tts_default_emotion_witness :
  TTSRequest_validate text_only_body = inr (mkTTSRequest "what a play" "hype") /\
  exists prefix, EMOTION_PROMPTS !! "hype" = Some prefix /\
    head (out_trace (post_tts _ stub_generate stub_encode text_only_body
                       (serve _ stub_generate stub_encode [calm_body] module_init) [])) =
    Some (Generate (prefix +:+ " " +:+ "what a play")).
Proof.
  apply (post_tts_default_emotion (list Z) stub_generate stub_encode
           [calm_body] text_only_body "what a play"); vm_compute; reflexivity.
Defined.

Lemma tts_wav_24000_witness :
  (forall sr fmt, SfWrite sr fmt ∈ out_trace (tts _ stub_generate stub_encode
                                                (mkTTSRequest "gg" "tense") module_init []) ->
     sr = 24000%Z /\ fmt = "WAV") /\
  (forall r, out_res (tts _ stub_generate stub_encode
                        (mkTTSRequest "gg" "tense") module_init []) = inr r ->
     media_type r = "audio/wav" /\ status_code r = 200%Z) /\
  (forall body, http_status (http_post_tts _ stub_generate stub_encode body module_init) = 200%Z ->
     http_content_type (http_post_tts _ stub_generate stub_encode body module_init) = "audio/wav").
Proof.
  apply (tts_wav_24000 (list Z) stub_generate stub_encode
           (mkTTSRequest "gg" "tense") module_init).
Defined.

Lemma post_tts_faults_propagate_witness :
  out_res (post_tts _ failing_generate stub_encode calm_body module_init []) =
    inl (PyException "RuntimeError" "CUDA out of memory") /\
  out_proc (post_tts _ failing_generate stub_encode calm_body module_init []) = module_init /\
  http_post_tts _ failing_generate stub_encode calm_body module_init = generic_server_error.
Proof.
  apply (post_tts_faults_propagate (list Z) failing_generate stub_encode
           calm_body (mkTTSRequest "gg well played" "calm") module_init
           (PyException "RuntimeError" "CUDA out of memory")).
  - vm_compute. reflexivity.
  - left. reflexivity.
Defined.

Lemma EMOTION_PROMPTS_fixed_witness :
  dom EMOTION_PROMPTS = ({["hype"; "tense"; "calm"]} : gset string) /\
  map_Forall (fun _ v => v <> "") EMOTION_PROMPTS /\
  emotion_prompts module_init = EMOTION_PROMPTS /\
  emotion_prompts (serve _ stub_generate stub_encode [calm_body; text_only_body] module_init)
    = EMOTION_PROMPTS.
Proof.
  apply (EMOTION_PROMPTS_fixed (list Z) stub_generate stub_encode
           [calm_body; text_only_body]).
Defined.

Definition empty_text_body : gmap string json :=
  <["text" := JString ""]> (<["emotion" := JString "tense"]> ∅).

Lemma post_tts_empty_text_witness :
  exists req, TTSRequest_validate empty_text_body = inr req /\ text req = "" /\
    head (out_trace (post_tts _ stub_generate stub_encode empty_text_body
                       (serve _ stub_generate stub_encode [] module_init) [])) =
    Some (Generate (dict_get EMOTION_PROMPTS (emotion req) "" +:+ " ")).
Proof.
  apply (post_tts_empty_text (list Z) stub_generate stub_encode [] empty_text_body).
  - vm_compute. reflexivity.
  - right. exists "tense". vm_compute. reflexivity.
Defined.

Lemma tts_emotion_exact_match_witness :
  dict_get EMOTION_PROMPTS (emotion (mkTTSRequest "gg" "Hype")) "" = "" /\
  head (out_trace (tts _ stub_generate stub_encode (mkTTSRequest "gg" "Hype")
                     (serve _ stub_generate stub_encode [] module_init) [])) =
  Some (Generate (" " +:+ "gg")).
Proof.
  apply (tts_emotion_exact_match (list Z) stub_generate stub_encode []
           (mkTTSRequest "gg" "Hype")).
  apply (bool_decide_unpack _). vm_compute. exact I.
Defined.

Lemma post_tts_deterministic_witness :
  let o1 := post_tts _ stub_generate stub_encode calm_body module_init [] in
  let o2 := post_tts _ stub_generate stub_encode calm_body
              (serve _ stub_generate stub_encode [text_only_body] (out_proc o1)) [] in
  o1 = o2 /\ out_proc o1 = module_init /\ out_proc o2 = module_init.
Proof.
  apply (post_tts_deterministic (list Z) stub_generate stub_encode
           calm_body [text_only_body] module_init).
Defined.

Lemma tts_body_is_encoding_witness :
  exists r, out_res (tts _ stub_generate stub_encode
                       (mkTTSRequest "gg" "hype") module_init []) = inr r /\
  exists audio bs,
    stub_generate (compose_prompt (emotion_prompts module_init) (mkTTSRequest "gg" "hype"))
      = inr audio /\
    stub_encode audio 24000 "WAV" = inr bs /\
    bio_data (content r) = bs /\
    response_body r = bs.
Proof.
  eexists. split.
  - vm_compute. reflexivity.
  - apply (tts_body_is_encoding (list Z) stub_generate stub_encode
             (mkTTSRequest "gg" "hype") module_init).
    vm_compute. reflexivity.
Defined.

(** The examples of claim C8 other than "Hype". *)
Example exact_match_CALM : dict_get EMOTION_PROMPTS "CALM" "" = "".
Proof. vm_compute. reflexivity. Qed.

Example exact_match_space_hype : dict_get EMOTION_PROMPTS " hype" "" = "".
Proof. vm_compute. reflexivity. Qed.

(** ** Witnesses for the further properties *)

Definition null_emotion_body : gmap string json :=
  <["text" := JString "gg"]> (<["emotion" := JNull]> ∅).

Lemma post_tts_text_required_witness :
  (exists msg, out_res (post_tts _ stub_generate stub_encode ∅ module_init []) =
                 inl (ValidationError "text" msg)) /\
  out_trace (post_tts _ stub_generate stub_encode ∅ module_init []) = [] /\
  http_status (http_post_tts _ stub_generate stub_encode ∅ module_init) = 422%Z.
Proof.
  apply (post_tts_text_required (list Z) stub_generate stub_encode ∅ module_init).
  intros t. vm_compute. discriminate.
Defined.

Lemma post_tts_emotion_must_be_string_witness :
  (exists msg, out_res (post_tts _ stub_generate stub_encode null_emotion_body module_init []) =
                 inl (ValidationError "emotion" msg)) /\
  out_trace (post_tts _ stub_generate stub_encode null_emotion_body module_init []) = [] /\
  http_status (http_post_tts _ stub_generate stub_encode null_emotion_body module_init) = 422%Z.
Proof.
  apply (post_tts_emotion_must_be_string (list Z) stub_generate stub_encode
           null_emotion_body module_init "gg" JNull).
  - vm_compute. reflexivity.
  - vm_compute. reflexivity.
  - intros em. discriminate.
Defined.

Lemma post_tts_extra_keys_ignored_witness :
  TTSRequest_validate (<["speed" := JNumber 2]> calm_body) = TTSRequest_validate calm_body /\
  post_tts _ stub_generate stub_encode (<["speed" := JNumber 2]> calm_body) module_init [] =
  post_tts _ stub_generate stub_encode calm_body module_init [].
Proof.
  apply (post_tts_extra_keys_ignored (list Z) stub_generate stub_encode
           calm_body "speed" (JNumber 2) module_init); discriminate.
Defined.

Lemma tts_call_sequence_witness :
  let prompt := compose_prompt (emotion_prompts module_init) (mkTTSRequest "gg" "calm") in
  (forall e, failing_generate prompt = inl e ->
     out_trace (tts _ failing_generate stub_encode (mkTTSRequest "gg" "calm") module_init []) =
     [Generate prompt]) /\
  (forall audio, failing_generate prompt = inr audio ->
     out_trace (tts _ failing_generate stub_encode (mkTTSRequest "gg" "calm") module_init []) =
     [Generate prompt; SfWrite 24000 "WAV"]).
Proof.
  apply (tts_call_sequence (list Z) failing_generate stub_encode
           (mkTTSRequest "gg" "calm") module_init).
Defined.

Lemma compose_prompt_injective_witness :
  text (mkTTSRequest "gg" "joyful") = text (mkTTSRequest "gg" "Hype") /\
  dict_get EMOTION_PROMPTS (emotion (mkTTSRequest "gg" "joyful")) "" =
  dict_get EMOTION_PROMPTS (emotion (mkTTSRequest "gg" "Hype")) "".
Proof.
  apply (compose_prompt_injective (mkTTSRequest "gg" "joyful") (mkTTSRequest "gg" "Hype")).
  vm_compute. reflexivity.
Defined.
